(** * The checkout-session endpoint of server/server.js

    A shallow embedding of the route handler
    [app.post('/create-checkout-session', async (req, res) => ...)]
    together with the fragment of JavaScript it relies on: JSON-shaped
    values, destructuring defaults, [Number.isInteger], [String(...)],
    [||], and the try/catch around the awaited provider call. *)

From Stdlib Require Import ZArith QArith Qpower List String Ascii Bool Lia.
From Stdlib Require Import Floats.SpecFloat.
Import ListNotations.
Local Open Scope string_scope.
Local Open Scope Z_scope.
Local Set Warnings "-register-all".

(** ** JavaScript values *)

Module JS.

(** A Number is an IEEE 754 binary64 datum: signed zero, signed infinity,
    NaN, or [(-1)^s * m * 2^e].  The theorems below quantify over every
    datum of this shape, canonical or not. *)
Definition number : Type := spec_float.

Definition prec : Z := 53.
Definition emax : Z := 1024.

(** The Number denoted by an integer literal of the source. *)
Definition number_of_Z (z : Z) : number := binary_normalize prec emax z 0 false.

(** The values [express.json()] can hand to the handler, closed under what
    the handler itself builds; [VUndefined] is the result of reading a
    property that is not there.  An object is the list of its own
    properties in insertion order, read by first match; values nest, so the
    list is kept inside the inductive type. *)
Inductive value : Type :=
| VUndefined
| VNull
| VBool (b : bool)
| VNum (x : number)
| VStr (s : string)
| VArr (elems : list value)
| VObj (props : list (string * value)).

Definition num (z : Z) : value := VNum (number_of_Z z).

(** Thrown values: [Error] objects, of which the handler reads [message]. *)
Record Error : Type := mkError { name : string; message : string }.

Definition TypeError (msg : string) : Error := mkError "TypeError" msg.

Inductive completion (A : Type) : Type :=
| Normal (a : A)
| Throw (err : Error).
Arguments Normal {A} a.
Arguments Throw {A} err.

(** ToBoolean *)
Definition ToBoolean (v : value) : bool :=
  match v with
  | VUndefined | VNull => false
  | VBool b => b
  | VNum (S754_zero _) | VNum S754_nan => false
  | VNum _ => true
  | VStr s => negb (String.eqb s "")
  | VArr _ | VObj _ => true
  end.

(** [a || b] on values. *)
Definition logical_or (a b : value) : value := if ToBoolean a then a else b.

Fixpoint lookup (key : string) (props : list (string * value)) : option value :=
  match props with
  | [] => None
  | (k, v) :: rest => if String.eqb key k then Some v else lookup key rest
  end.

Definition has_own (key : string) (props : list (string * value)) : bool :=
  match lookup key props with Some _ => true | None => false end.

(** Property read [v.key] on a value that is neither [undefined] nor [null],
    for the keys the server reads ([price], [quantity], [name], [url]):
    none of them is an array index or is provided by a built-in prototype,
    so the read yields the own property of an object and [undefined]
    everywhere else. *)
Definition Get (v : value) (key : string) : value :=
  match v with
  | VObj props => match lookup key props with Some x => x | None => VUndefined end
  | _ => VUndefined
  end.

(** A binding [key = dflt] of a destructuring pattern: the initialiser is
    used exactly when the property read yields [undefined]. *)
Definition binding (v : value) (key : string) (dflt : value) : value :=
  match Get v key with
  | VUndefined => dflt
  | x => x
  end.

(** [Number.isInteger]: a Number that is finite and has no fractional part. *)
Definition is_integral (x : number) : bool :=
  match x with
  | S754_zero _ => true
  | S754_finite _ m e => (0 <=? e) || (Z.pos m mod 2 ^ (- e) =? 0)
  | S754_infinity _ | S754_nan => false
  end.

Definition Number_isInteger (v : value) : bool :=
  match v with
  | VNum x => is_integral x
  | _ => false
  end.

(** Number::toString is left to the engine: ECMAScript fixes the number of
    digits printed but not always the last digit. *)
Class Engine : Type := Number_toString : number -> string.

Section Conversions.
Context {engine : Engine}.

(** ToString, as called by [String(v)].
    - An array is printed by [Array.prototype.join]: the elements'
      strings separated by commas, [undefined] and [null] printing as the
      empty string.
    - An object goes through OrdinaryToPrimitive: an own property
      [toString] is never callable here and shadows the inherited method,
      then [valueOf] is either an own, non-callable property or
      [Object.prototype.valueOf], which returns the object itself: a
      TypeError.  Without an own [toString] the inherited method answers
      ["[object Object]"]. *)
Fixpoint ToString (v : value) : completion string :=
  match v with
  | VUndefined => Normal "undefined"
  | VNull => Normal "null"
  | VBool true => Normal "true"
  | VBool false => Normal "false"
  | VNum x => Normal (Number_toString x)
  | VStr s => Normal s
  | VArr elems =>
      let fix texts (l : list value) : completion (list string) :=
        match l with
        | [] => Normal []
        | e :: l' =>
            match (match e with
                   | VUndefined | VNull => Normal ""
                   | _ => ToString e
                   end) with
            | Throw err => Throw err
            | Normal s =>
                match texts l' with
                | Throw err => Throw err
                | Normal ss => Normal (s :: ss)
                end
            end
        end in
      match texts elems with
      | Throw err => Throw err
      | Normal ss => Normal (String.concat "," ss)
      end
  | VObj props =>
      if has_own "toString" props
      then Throw (TypeError "Cannot convert object to primitive value")
      else Normal "[object Object]"
  end.

End Conversions.

(** The mathematical value of a finite Number. *)
Definition number_value (x : number) : option Q :=
  match x with
  | S754_zero _ => Some 0%Q
  | S754_finite s m e =>
      Some (inject_Z (if s then Z.neg m else Z.pos m) * Qpower 2 e)%Q
  | S754_infinity _ | S754_nan => None
  end.

End JS.

Import JS.

(** ** The server *)

(** [process.env], as far as the handler reads it. *)
Record process_env : Type := { FRONTEND_URL : option string }.

(** [process.env.X || dflt]: an unset or empty variable gives [dflt]. *)
Definition env_or (x : option string) (dflt : string) : string :=
  match x with
  | Some s => if String.eqb s "" then dflt else s
  | None => dflt
  end.

(** The promise returned by [stripe.checkout.sessions.create] settles
    either with a session object or with an [Error]. *)
Inductive settled : Type :=
| Resolved (session : list (string * value))
| Rejected (err : Error).

(** The provider client: what the call answers for each descriptor.  The
    handler calls it at most once per request, so a function of the
    descriptor covers every behaviour of the provider within a request. *)
Definition Stripe : Type := value -> settled.

(** What one request makes observable besides its response. *)
Inductive event : Type :=
| SessionsCreate (params : value)
| ConsoleError (err : Error).

(** Computations of the handler: they may throw, and they extend the trace
    of events. *)
Definition M (A : Type) : Type := list event -> completion A * list event.

Definition ret {A} (a : A) : M A := fun tr => (Normal a, tr).

Definition bind {A B} (m : M A) (k : A -> M B) : M B :=
  fun tr =>
    match m tr with
    | (Normal a, tr') => k a tr'
    | (Throw err, tr') => (Throw err, tr')
    end.

Definition lift {A} (c : completion A) : M A := fun tr => (c, tr).

Definition try_catch {A} (block : M A) (handler : Error -> M A) : M A :=
  fun tr =>
    match block tr with
    | (Normal a, tr') => (Normal a, tr')
    | (Throw err, tr') => handler err tr'
    end.

Notation "x <- m ;; k" := (bind m (fun x => k))
  (at level 61, m at next level, right associativity).
Notation "m ;; k" := (bind m (fun _ => k))
  (at level 61, right associativity).

(** [await stripe.checkout.sessions.create(params)] *)
Definition sessions_create (stripe : Stripe) (params : value)
  : M (list (string * value)) :=
  fun tr =>
    (match stripe params with
     | Resolved session => Normal session
     | Rejected err => Throw err
     end, (tr ++ [SessionsCreate params])%list).

(** [console.error(err)] *)
Definition console_error (err : Error) : M unit :=
  fun tr => (Normal tt, (tr ++ [ConsoleError err])%list).

(** The response sent: [res.status(code).json(body)]; without [status] the
    code is 200. *)
Record response : Type := { statusCode : Z; body : value }.

Definition res_status_json (code : Z) (b : value) : response :=
  {| statusCode := code; body := b |}.

Definition res_json (b : value) : response := res_status_json 200 b.

(** [v <= 0] on a Number. *)
Definition le_zero (v : value) : bool :=
  match v with
  | VNum x => SFleb x (number_of_Z 0)
  | _ => true (* never evaluated, see [price_rejected] *)
  end.

(** [!Number.isInteger(price) || price <= 0]: the comparison is evaluated
    only when [Number.isInteger(price)] holds, hence on a Number. *)
Definition price_rejected (price : value) : bool :=
  if Number_isInteger price then le_zero price else true.

(** The argument of [stripe.checkout.sessions.create]. *)
Definition session_params (YOUR_DOMAIN : string) (price quantity : value)
  (product_name : string) : value :=
  VObj
    [ ("mode", VStr "payment");
      ("payment_method_types", VArr [VStr "card"]);
      ("line_items",
        VArr
          [ VObj
              [ ("price_data",
                  VObj
                    [ ("currency", VStr "eur");
                      ("product_data", VObj [("name", VStr product_name)]);
                      ("unit_amount", price) ]);
                ("quantity", quantity) ] ]);
      ("success_url",
        VStr (YOUR_DOMAIN ++ "/success?session_id={CHECKOUT_SESSION_ID}"));
      ("cancel_url", VStr (YOUR_DOMAIN ++ "/cancelled")) ].

Section Handler.
Context {engine : Engine}.

(** [const { price = 1500, quantity = 1, name = 'Test Product' } = req.body || {}] *)
Definition destructure (req_body : value) : value * value * value :=
  let b := logical_or req_body (VObj []) in
  (binding b "price" (num 1500),
   binding b "quantity" (num 1),
   binding b "name" (VStr "Test Product")).

(** The handler of [POST /create-checkout-session]. *)
Definition create_checkout_session
  (stripe : Stripe) (env : process_env) (req_body : value) : M response :=
  try_catch
    (let '(price, quantity, name) := destructure req_body in
     if price_rejected price then
       ret (res_status_json 400
              (VObj [("error",
                      VStr "price must be a positive integer (in cents)")]))
     else
       let YOUR_DOMAIN := env_or (FRONTEND_URL env) "http://localhost:3000" in
       product_name <- lift (ToString name) ;;
       session <- sessions_create stripe
                    (session_params YOUR_DOMAIN price quantity product_name) ;;
       ret (res_json (VObj [("url", Get (VObj session) "url")])))
    (fun err =>
       console_error err ;;
       ret (res_status_json 500 (VObj [("error", VStr (message err))]))).

(** One request, served from an empty trace. *)
Definition serve (stripe : Stripe) (env : process_env) (req_body : value)
  : completion response * list event :=
  create_checkout_session stripe env req_body [].

End Handler.

(** ** Vocabulary of the specification *)

(** The mathematical value of a JavaScript value, when it is a finite
    Number. *)
Definition value_of (v : value) : option Q :=
  match v with
  | VNum x => number_value x
  | _ => None
  end.

(** [v] is the integer [z]. *)
Definition denotes (v : value) (z : Z) : Prop :=
  exists q : Q, value_of v = Some q /\ (q == inject_Z z)%Q.

Definition is_integer (v : value) : Prop := exists z : Z, denotes v z.

Definition is_zero (v : value) : Prop := denotes v 0.

Definition is_negative (v : value) : Prop :=
  (exists q : Q, value_of v = Some q /\ (q < 0)%Q) \/
  v = VNum (S754_infinity true).

Definition positive_integer (v : value) : Prop :=
  exists z : Z, 0 < z /\ denotes v z.

(** The descriptors handed to the provider, in order. *)
Definition calls (tr : list event) : list value :=
  flat_map (fun e => match e with
                     | SessionsCreate params => [params]
                     | ConsoleError _ => []
                     end) tr.

(** [v.k1.k2...] *)
Definition path (v : value) (keys : list string) : value :=
  fold_left Get keys v.

(** The 400 response of the price check. *)
Definition rejection : response :=
  {| statusCode := 400;
     body := VObj [("error", VStr "price must be a positive integer (in cents)")] |}.

(** The 500 response of the catch clause. *)
Definition failure (msg : string) : response :=
  {| statusCode := 500; body := VObj [("error", VStr msg)] |}.

(** The 200 response. *)
Definition success (url : value) : response :=
  {| statusCode := 200; body := VObj [("url", url)] |}.

(** What the descriptor [params] says, read back field by field. *)
Definition describes (params : value) (base : string) (price quantity : value)
  (product_name : string) : Prop :=
  exists item : value,
    Get params "line_items" = VArr [item] /\
    path item ["price_data"; "currency"] = VStr "eur" /\
    path item ["price_data"; "unit_amount"] = price /\
    Get item "quantity" = quantity /\
    path item ["price_data"; "product_data"; "name"] = VStr product_name /\
    Get params "mode" = VStr "payment" /\
    Get params "success_url" =
      VStr (base ++ "/success?session_id={CHECKOUT_SESSION_ID}") /\
    Get params "cancel_url" = VStr (base ++ "/cancelled").

(** The ways a request can go. *)
Inductive taken {engine : Engine} (stripe : Stripe) (env : process_env)
  (price quantity name : value) : completion response * list event -> Prop :=
| PriceRejected :
    price_rejected price = true ->
    taken stripe env price quantity name (Normal rejection, [])
| NameThrows (err : Error) :
    price_rejected price = false ->
    ToString name = Throw err ->
    taken stripe env price quantity name
      (Normal (failure (message err)), [ConsoleError err])
| ProviderRejects (product_name : string) (err : Error) :
    price_rejected price = false ->
    ToString name = Normal product_name ->
    stripe (session_params (env_or (FRONTEND_URL env) "http://localhost:3000")
              price quantity product_name) = Rejected err ->
    taken stripe env price quantity name
      (Normal (failure (message err)),
       [SessionsCreate
          (session_params (env_or (FRONTEND_URL env) "http://localhost:3000")
             price quantity product_name);
        ConsoleError err])
| ProviderResolves (product_name : string) (session : list (string * value)) :
    price_rejected price = false ->
    ToString name = Normal product_name ->
    stripe (session_params (env_or (FRONTEND_URL env) "http://localhost:3000")
              price quantity product_name) = Resolved session ->
    taken stripe env price quantity name
      (Normal (success (Get (VObj session) "url")),
       [SessionsCreate
          (session_params (env_or (FRONTEND_URL env) "http://localhost:3000")
             price quantity product_name)]).

(** ** Sample collaborators *)

(** An engine for the closed examples, none of which prints a Number. *)
Definition mute_engine : Engine := fun _ => "".

(** A provider that resolves every call with a session whose url is [url]. *)
Definition resolving (url : string) : Stripe :=
  fun _ => Resolved [("id", VStr "cs_test_1"); ("url", VStr url)].

(** A provider that rejects every call with an [Error] saying [msg]. *)
Definition rejecting (msg : string) : Stripe :=
  fun _ => Rejected (mkError "Error" msg).

(** The environment of .env.example. *)
Definition example_env : process_env :=
  {| FRONTEND_URL := Some "http://localhost:3000" |}.

(** 2.5 *)
Definition two_and_a_half : number := S754_finite false 5629499534213120 (-51).

(** ** Start-up of the server *)

Module Startup.

(** [process.env] as the top level of server.js reads it, after
    [require('dotenv').config()]; [routes] holds what the handlers read. *)
Record env : Type :=
  { STRIPE_SECRET_KEY : option string;
    PORT : option string;
    routes : process_env }.

(** What the top level of server.js does, in order; [Complain] is its
    [console.error]. *)
Inductive step : Type :=
| Complain (msg : string)
| ProcessExit (code : Z)
| StripeClient (secret apiVersion : string)
| UseCors (origin : string)
| UseJson
| AppGet (route : string)
| AppPost (route : string)
| AppListen (port : value).

(** [process.env.PORT || 4242]: the string of the environment, or the
    Number 4242. *)
Definition port (e : env) : value :=
  match PORT e with
  | Some s => if String.eqb s "" then num 4242 else VStr s
  | None => num 4242
  end.

(** The top level of server.js: [process.exit(1)] ends the program, so
    nothing follows it. *)
Definition main (e : env) : list step :=
  match STRIPE_SECRET_KEY e with
  | Some stripeSecret =>
      if String.eqb stripeSecret "" then
        [ Complain "Missing STRIPE_SECRET_KEY in environment. Copy server/.env.example -> server/.env and set keys.";
          ProcessExit 1 ]
      else
        [ StripeClient stripeSecret "2023-08-16";
          UseCors (env_or (FRONTEND_URL (routes e)) "http://localhost:3000");
          UseJson;
          AppGet "/";
          AppPost "/create-checkout-session";
          AppListen (port e) ]
  | None =>
      [ Complain "Missing STRIPE_SECRET_KEY in environment. Copy server/.env.example -> server/.env and set keys.";
        ProcessExit 1 ]
  end.

End Startup.

(** ** The checkout client (client/src/App.jsx) *)

Module App.

(** What the browser provides besides the engine of the language.
    [StringToNumber] is the conversion of [Number(s)] on a string;
    [null_read_message] words the TypeError of a property read on [null]
    or [undefined]; [url_error] is the SyntaxError thrown when a string
    does not parse as a URL against the address of the page. *)
Class Browser : Type :=
  { StringToNumber : string -> number;
    null_read_message : string -> string;
    url_error : string -> option Error }.

(** A numeric field of the form: the Number given to [useState] as long as
    the field is untouched, then the string [e.target.value]. *)
Inductive field : Type :=
| Untouched (x : number)
| Entered (s : string).

(** The state of the component. *)
Record form : Type :=
  { loading : bool; price : field; quantity : field; name : string }.

(** [useState(false)], [useState(1500)], [useState(1)],
    [useState('Test Product')] *)
Definition initial : form :=
  {| loading := false;
     price := Untouched (number_of_Z 1500);
     quantity := Untouched (number_of_Z 1);
     name := "Test Product" |}.

Definition backend : string := "http://localhost:4242".

(** What a submission makes observable. *)
Inductive ui_event : Type :=
| PreventDefault
| SetLoading (b : bool)
| Fetch (url : string) (payload : value)
| SetLocation (href : string)
| Alert (text : string)
| LogError (err : Error).

(** How [fetch] followed by [res.json()] ends: [fetch] rejects, or the
    body of the response is not JSON, or it parses to [data]. *)
Inductive reply : Type :=
| FetchRejects (err : Error)
| JsonRejects (err : Error)
| Json (data : value).

(** The network, as a function of the value handed to [JSON.stringify]. *)
Definition Network : Type := value -> reply.

Definition UI (A : Type) : Type :=
  list ui_event -> completion A * list ui_event.

Definition emit (e : ui_event) : UI unit :=
  fun tr => (Normal tt, (tr ++ [e])%list).

Definition and_then {A B} (m : UI A) (k : A -> UI B) : UI B :=
  fun tr =>
    match m tr with
    | (Normal a, tr') => k a tr'
    | (Throw err, tr') => (Throw err, tr')
    end.

Definition settle {A} (c : completion A) : UI A := fun tr => (c, tr).

(** [try { block } catch (err) { handler } finally { finalizer }] *)
Definition try_catch_finally {A} (block : UI A) (handler : Error -> UI A)
  (finalizer : UI unit) : UI A :=
  fun tr =>
    let '(c, tr1) :=
      match block tr with
      | (Normal a, tr') => (Normal a, tr')
      | (Throw err, tr') => handler err tr'
      end in
    match finalizer tr1 with
    | (Normal _, tr2) => (c, tr2)
    | (Throw err, tr2) => (Throw err, tr2)
    end.

Notation "'let*' x ':=' m 'in' k" := (and_then m (fun x => k))
  (at level 10, x name, m at level 200, k at level 200).

Section Component.
Context {engine : Engine} {browser : Browser}.

(** [Number(f)] on a field. *)
Definition Number (f : field) : number :=
  match f with
  | Untouched x => x
  | Entered s => StringToNumber s
  end.

(** [v.key] where [v] may be [null]. *)
Definition GetV (v : value) (key : string) : completion value :=
  match v with
  | VUndefined | VNull => Throw (TypeError (null_read_message key))
  | _ => Normal (Get v key)
  end.

(** [{ price: Number(price), quantity: Number(quantity), name }] *)
Definition payload_of (st : form) : value :=
  VObj [ ("price", VNum (Number (price st)));
         ("quantity", VNum (Number (quantity st)));
         ("name", VStr (name st)) ].

(** [await fetch(url, { method: 'POST', ..., body: JSON.stringify(payload) })]
    followed by [await res.json()]. *)
Definition fetch_json (net : Network) (url : string) (payload : value)
  : UI value :=
  fun tr =>
    (match net payload with
     | FetchRejects err => Throw err
     | JsonRejects err => Throw err
     | Json data => Normal data
     end, (tr ++ [Fetch url payload])%list).

(** [window.location = v]: [v] is converted to a string and parsed as a
    URL; either step may throw, otherwise the navigation starts. *)
Definition assign_location (v : value) : UI unit :=
  fun tr =>
    match ToString v with
    | Throw err => (Throw err, tr)
    | Normal href =>
        match url_error href with
        | Some err => (Throw err, tr)
        | None => (Normal tt, (tr ++ [SetLocation href])%list)
        end
    end.

(** [alert(v)]: [v] is converted to a string, which may throw, and shown. *)
Definition alert (v : value) : UI unit :=
  fun tr =>
    match ToString v with
    | Throw err => (Throw err, tr)
    | Normal text => (Normal tt, (tr ++ [Alert text])%list)
    end.

(** [handleCheckout(e)] *)
Definition handleCheckout (net : Network) (st : form) : UI unit :=
  let* _ := emit PreventDefault in
  let* _ := emit (SetLoading true) in
  try_catch_finally
    (let* data := fetch_json net (backend ++ "/create-checkout-session")
                    (payload_of st) in
     let* url := settle (GetV data "url") in
     if ToBoolean url then assign_location url
     else alert (logical_or (Get data "error") (VStr "Unknown error")))
    (fun err =>
       let* _ := emit (LogError err) in
       alert (VStr "Request failed"))
    (emit (SetLoading false)).

(** One submission, from an empty trace. *)
Definition submit (net : Network) (st : form) : completion unit * list ui_event :=
  handleCheckout net st [].

End Component.

(** The events that show the user something. *)
Definition outcomes (tr : list ui_event) : list ui_event :=
  filter (fun e => match e with
                   | SetLocation _ | Alert _ => true
                   | _ => false
                   end) tr.

(** The value [loading] is left with: the last [setLoading]. *)
Definition loading_after (tr : list ui_event) (before : bool) : bool :=
  fold_left (fun l e => match e with SetLoading b => b | _ => l end) tr before.

(** A browser for the closed examples, which convert no string and read no
    property of [null]; it takes every string for a URL. *)
Definition sample_browser : Browser :=
  {| StringToNumber := fun _ => S754_nan;
     null_read_message := fun _ => "";
     url_error := fun _ => None |}.

End App.

(** ** Client and server together *)

(** [JSON.parse(JSON.stringify(v))] on a value other than [undefined]:
    properties that are [undefined] are left out, [undefined] in an array
    becomes [null], NaN and the infinities become [null], and -0 becomes 0;
    a finite Number is written with enough digits to be read back. *)
Fixpoint JSON_roundtrip (v : value) : value :=
  match v with
  | VUndefined | VNull | VBool _ | VStr _ => v
  | VNum (S754_zero _) => VNum (S754_zero false)
  | VNum (S754_finite _ _ _) => v
  | VNum (S754_infinity _) | VNum S754_nan => VNull
  | VArr elems =>
      VArr
        ((fix elements (l : list value) : list value :=
            match l with
            | [] => []
            | e :: l' =>
                match e with
                | VUndefined => VNull
                | _ => JSON_roundtrip e
                end :: elements l'
            end) elems)
  | VObj props =>
      VObj
        ((fix properties (l : list (string * value)) : list (string * value) :=
            match l with
            | [] => []
            | (k, e) :: l' =>
                match e with
                | VUndefined => properties l'
                | _ => (k, JSON_roundtrip e) :: properties l'
                end
            end) props)
  end.

(** A network that delivers: the request passes CORS and the size limit
    of [express.json()], which hands the handler the JSON of the payload,
    and the client parses the JSON the handler sent.  The handler always
    answers (see [serve_total]), so the last case is never taken. *)
Definition delivered {node : Engine} (stripe : Stripe) (env : process_env)
  : App.Network :=
  fun payload =>
    match fst (@serve node stripe env (JSON_roundtrip payload)) with
    | Normal r => App.Json (JSON_roundtrip (body r))
    | Throw err => App.FetchRejects err
    end.

(** ** Names that cannot be printed *)


(** ** Numbers *)

Lemma Qpower_2_nonneg (e : Z) : 0 <= e -> (Qpower 2 e == inject_Z (2 ^ e))%Q.
Proof. intros He. now rewrite (Zpower_Qpower 2 e He). Qed.

Lemma Qpower_2_neg (e : Z) : e < 0 -> (Qpower 2 e == / inject_Z (2 ^ (- e)))%Q.
Proof.
  intros He.
  rewrite <- (Z.opp_involutive e) at 1.
  rewrite Qpower_opp, Qpower_2_nonneg by lia. reflexivity.
Qed.

Lemma Qmult_inv_integer (a z : Z) (p : positive) :
  (inject_Z a * / inject_Z (Z.pos p) == inject_Z z)%Q <-> a = z * Z.pos p.
Proof.
  unfold Qeq, Qinv, Qmult, inject_Z; simpl. lia.
Qed.

(** [a * 2^e] is an integer exactly when [e] is not negative or [2^-e]
    divides [a]. *)
Lemma scaled_integer (a e : Z) :
  (exists z : Z, (inject_Z a * Qpower 2 e == inject_Z z)%Q) <->
  (0 <= e \/ a mod 2 ^ (- e) = 0).
Proof.
  destruct (Z.leb_spec 0 e) as [He | He].
  - split; [now left |]. intros _. exists (a * 2 ^ e).
    rewrite Qpower_2_nonneg, inject_Z_mult by assumption. reflexivity.
  - assert (Hp : 0 < 2 ^ (- e)) by (apply Z.pow_pos_nonneg; lia).
    destruct (2 ^ (- e)) as [| p | p] eqn:Ep; try lia.
    split.
    + intros [z Hz]. right.
      rewrite Qpower_2_neg, Ep in Hz by assumption.
      apply (proj1 (Qmult_inv_integer a z p)) in Hz. subst a. apply Z_mod_mult.
    + intros [Hle | Hmod]; [lia |].
      apply Zmod_divides in Hmod; [| lia]. destruct Hmod as [c Hc].
      exists c. rewrite Qpower_2_neg, Ep by assumption.
      apply (proj2 (Qmult_inv_integer a c p)). lia.
Qed.

Lemma signed_mod (s : bool) (m : positive) (d : Z) :
  (if s then Z.neg m else Z.pos m) mod d = 0 <-> Z.pos m mod d = 0.
Proof.
  destruct s; [| reflexivity].
  change (Z.neg m) with (- Z.pos m).
  split; intros H.
  - rewrite <- (Z.opp_involutive (Z.pos m)). now apply Z_mod_zero_opp_full.
  - now apply Z_mod_zero_opp_full.
Qed.

(** [Number.isInteger] holds of the Numbers whose value is an integer. *)
Lemma Number_isInteger_spec (v : value) :
  Number_isInteger v = true <-> is_integer v.
Proof.
  unfold is_integer, denotes.
  destruct v as [| | b | x | s | l | o]; simpl;
    try (split; [discriminate | intros (z & q & Hq & _); discriminate]).
  destruct x as [s | s | | s m e]; simpl.
  - split; [| reflexivity]. intros _. exists 0, 0%Q. split; reflexivity.
  - split; [discriminate |]. intros (z & q & Hq & _). discriminate.
  - split; [discriminate |]. intros (z & q & Hq & _). discriminate.
  - rewrite orb_true_iff, Z.leb_le, Z.eqb_eq.
    rewrite <- (signed_mod s m), <- scaled_integer.
    split.
    + intros [z Hz]. exists z. eexists. split; [reflexivity | exact Hz].
    + intros (z & q & Hq & Hz). injection Hq as <-. now exists z.
Qed.

(** The sign bit of a finite Number is the sign of its value. *)
Lemma finite_sign (s : bool) (m : positive) (e : Z) :
  let q := (inject_Z (if s then Z.neg m else Z.pos m) * Qpower 2 e)%Q in
  if s then (q < 0)%Q else (0 < q)%Q.
Proof.
  assert (Hp : (0 < Qpower 2 e)%Q) by (apply Qpower_0_lt; reflexivity).
  destruct s; cbv zeta.
  - setoid_replace (inject_Z (Z.neg m)) with (- inject_Z (Z.pos m))%Q
      by reflexivity.
    assert (H : (0 < inject_Z (Z.pos m) * Qpower 2 e)%Q)
      by (apply Qmult_lt_0_compat; [reflexivity | exact Hp]).
    setoid_replace (- inject_Z (Z.pos m) * Qpower 2 e)%Q
      with (- (inject_Z (Z.pos m) * Qpower 2 e))%Q by ring.
    apply Qopp_lt_compat in H. exact H.
  - apply Qmult_lt_0_compat; [reflexivity | exact Hp].
Qed.

(** On a finite Number, [x <= 0] compares its value with zero. *)
Lemma le_zero_spec (x : number) (q : Q) :
  number_value x = Some q ->
  (le_zero (VNum x) = true <-> (q <= 0)%Q).
Proof.
  destruct x as [s | s | | s m e]; simpl; try discriminate.
  - intros [= <-]. split; [intros _; apply Qle_refl | reflexivity].
  - intros [= <-]. pose proof (finite_sign s m e) as H. cbv zeta in H.
    unfold le_zero, SFleb. simpl.
    destruct s; split; intros H'; try reflexivity.
    + now apply Qlt_le_weak.
    + discriminate.
    + exfalso. apply (Qlt_irrefl 0). eapply Qlt_le_trans; eassumption.
Qed.

Lemma denotes_functional (v : value) (z1 z2 : Z) :
  denotes v z1 -> denotes v z2 -> z1 = z2.
Proof.
  intros (q1 & H1 & E1) (q2 & H2 & E2).
  rewrite H1 in H2. injection H2 as <-.
  apply inject_Z_injective. now rewrite <- E1, <- E2.
Qed.

(** The check of the handler lets through the positive integers and
    nothing else. *)
Lemma price_accepted_iff (price : value) :
  price_rejected price = false <-> positive_integer price.
Proof.
  unfold price_rejected. split.
  - destruct (Number_isInteger price) eqn:Hint; [| discriminate].
    apply Number_isInteger_spec in Hint. destruct Hint as (z & q & Hq & Hz).
    intros Hle. exists z. split; [| now exists q].
    destruct price as [| | b | x | s | l | o]; try discriminate.
    destruct (Z.ltb_spec 0 z) as [Hpos | Hneg]; [assumption | exfalso].
    assert (Hq0 : (q <= 0)%Q).
    { rewrite Hz. change 0%Q with (inject_Z 0). now rewrite <- Zle_Qle. }
    apply (le_zero_spec x q Hq) in Hq0. congruence.
  - intros (z & Hpos & q & Hq & Hz).
    assert (Hint : Number_isInteger price = true).
    { apply Number_isInteger_spec. exists z, q. now split. }
    rewrite Hint.
    destruct price as [| | b | x | s | l | o]; try discriminate.
    destruct (le_zero (VNum x)) eqn:Hle; [exfalso | reflexivity].
    apply (le_zero_spec x q Hq) in Hle.
    rewrite Hz in Hle. change 0%Q with (inject_Z 0) in Hle.
    rewrite <- Zle_Qle in Hle. lia.
Qed.

Lemma price_rejected_iff (price : value) :
  price_rejected price = true <->
  ~ is_integer price \/ is_zero price \/ is_negative price.
Proof.
  split.
  - unfold price_rejected.
    destruct (Number_isInteger price) eqn:Hint.
    + pose proof Hint as Hint'.
      apply Number_isInteger_spec in Hint'. destruct Hint' as (z & q & Hq & Hz).
      destruct price as [| | b | x | s | l | o]; try discriminate.
      intros Hle. apply (le_zero_spec x q Hq) in Hle.
      apply Qle_lt_or_eq in Hle. destruct Hle as [Hlt | Heq].
      * right; right; left. now exists q.
      * right; left. exists q. now split.
    + intros _. left. intros H. apply Number_isInteger_spec in H. congruence.
  - intros H. destruct (price_rejected price) eqn:Hrej; [reflexivity | exfalso].
    apply price_accepted_iff in Hrej. destruct Hrej as (z & Hpos & Hden).
    destruct H as [H | [H | [(q & Hq & Hlt) | H]]].
    + apply H. now exists z.
    + pose proof (denotes_functional _ _ _ Hden H). lia.
    + destruct Hden as (q' & Hq' & Hz). rewrite Hq in Hq'. injection Hq' as <-.
      rewrite Hz in Hlt. change 0%Q with (inject_Z 0) in Hlt.
      rewrite <- Zlt_Qlt in Hlt. lia.
    + subst price. destruct Hden as (q' & Hq' & _). discriminate.
Qed.

Lemma not_positive_integer_iff (price : value) :
  ~ positive_integer price <-> price_rejected price = true.
Proof.
  rewrite <- price_accepted_iff. destruct (price_rejected price); split;
    congruence.
Qed.

(** ** The four paths through the handler *)

Section Paths.
Context {engine : Engine}.
Variables (stripe : Stripe) (env : process_env) (req_body : value).
Variables (price quantity name : value).
Hypothesis Hbody : destructure req_body = (price, quantity, name).

Lemma run_rejected (tr : list event) :
  price_rejected price = true ->
  create_checkout_session stripe env req_body tr = (Normal rejection, tr).
Proof.
  intros Hrej. unfold create_checkout_session, try_catch.
  rewrite Hbody, Hrej. reflexivity.
Qed.

Lemma run_unprintable_name (tr : list event) (err : Error) :
  price_rejected price = false ->
  ToString name = Throw err ->
  create_checkout_session stripe env req_body tr =
    (Normal (failure (message err)), (tr ++ [ConsoleError err])%list).
Proof.
  intros Hok Hname. unfold create_checkout_session, try_catch, bind, lift.
  rewrite Hbody, Hok, Hname. reflexivity.
Qed.

Lemma run_provider_rejects (tr : list event) (product_name : string) (err : Error) :
  price_rejected price = false ->
  ToString name = Normal product_name ->
  stripe (session_params (env_or (FRONTEND_URL env) "http://localhost:3000")
            price quantity product_name) = Rejected err ->
  create_checkout_session stripe env req_body tr =
    (Normal (failure (message err)),
     (tr ++ [SessionsCreate
               (session_params (env_or (FRONTEND_URL env) "http://localhost:3000")
                  price quantity product_name);
             ConsoleError err])%list).
Proof.
  intros Hok Hname Hrej.
  unfold create_checkout_session, try_catch, bind, lift, sessions_create.
  rewrite Hbody, Hok, Hname, Hrej. unfold console_error, ret, failure.
  rewrite <- app_assoc. reflexivity.
Qed.

Lemma run_provider_resolves (tr : list event) (product_name : string)
  (session : list (string * value)) :
  price_rejected price = false ->
  ToString name = Normal product_name ->
  stripe (session_params (env_or (FRONTEND_URL env) "http://localhost:3000")
            price quantity product_name) = Resolved session ->
  create_checkout_session stripe env req_body tr =
    (Normal (success (Get (VObj session) "url")),
     (tr ++ [SessionsCreate
               (session_params (env_or (FRONTEND_URL env) "http://localhost:3000")
                  price quantity product_name)])%list).
Proof.
  intros Hok Hname Hres.
  unfold create_checkout_session, try_catch, bind, lift, sessions_create.
  rewrite Hbody, Hok, Hname, Hres. reflexivity.
Qed.

End Paths.

Lemma session_params_describes (base : string) (price quantity : value)
  (product_name : string) :
  describes (session_params base price quantity product_name)
    base price quantity product_name.
Proof. eexists. repeat split; reflexivity. Qed.

Lemma env_or_set (s dflt : string) : s <> "" -> env_or (Some s) dflt = s.
Proof.
  intros Hs. unfold env_or. destruct (String.eqb_spec s ""); congruence.
Qed.

Section Claims.
Context {engine : Engine}.

(** Every request takes one of the four paths; in particular the handler
    always answers. *)
Lemma serve_taken (stripe : Stripe) (env : process_env)
  (req_body price quantity name : value) :
  destructure req_body = (price, quantity, name) ->
  taken stripe env price quantity name (serve stripe env req_body).
Proof.
  intros Hbody. unfold serve.
  destruct (price_rejected price) eqn:Hprice.
  - rewrite (run_rejected stripe env req_body _ _ _ Hbody [] Hprice).
    now constructor.
  - destruct (ToString name) as [product_name | err] eqn:Hname.
    + destruct (stripe (session_params
                          (env_or (FRONTEND_URL env) "http://localhost:3000")
                          price quantity product_name)) as [session | err] eqn:Hs.
      * rewrite (run_provider_resolves stripe env req_body _ _ _ Hbody []
                   product_name session Hprice Hname Hs).
        now apply ProviderResolves.
      * rewrite (run_provider_rejects stripe env req_body _ _ _ Hbody []
                   product_name err Hprice Hname Hs).
        now apply ProviderRejects.
    + rewrite (run_unprintable_name stripe env req_body _ _ _ Hbody [] err
                 Hprice Hname).
      now apply NameThrows.
Qed.

Lemma serve_total (stripe : Stripe) (env : process_env) (req_body : value) :
  exists (r : response) (tr : list event),
    serve stripe env req_body = (Normal r, tr).
Proof.
  destruct (destructure req_body) as [[price quantity] name] eqn:Hbody.
  destruct (serve_taken stripe env _ _ _ _ Hbody); eauto.
Qed.

(** C1: whenever the price, after the default has been substituted, is not
    an integer, is zero, or is negative, the handler answers 400 with the
    message "price must be a positive integer (in cents)" and the trace of
    the request is empty: the provider is not called. *)
Theorem invalid_price_answers_400_without_provider
  (stripe : Stripe) (env : process_env) (req_body price quantity name : value) :
  destructure req_body = (price, quantity, name) ->
  ~ is_integer price \/ is_zero price \/ is_negative price ->
  serve stripe env req_body =
    (Normal {| statusCode := 400;
               body := VObj [("error",
                              VStr "price must be a positive integer (in cents)")] |},
     []) /\
  calls (snd (serve stripe env req_body)) = [].
Proof.
  intros Hbody Hbad. apply price_rejected_iff in Hbad.
  unfold serve. rewrite (run_rejected stripe env req_body _ _ _ Hbody [] Hbad).
  split; reflexivity.
Qed.

(** C2: when the provider rejects the descriptor it was handed, the handler
    answers 500 with the message of that error, unchanged, after logging
    it; a provider that fails with "auth failed" gives 500 and
    "auth failed". *)
Theorem provider_error_answers_500_verbatim :
  (forall (stripe : Stripe) (env : process_env) (req_body : value)
          (r : completion response) (tr : list event)
          (params : value) (err : Error),
      serve stripe env req_body = (r, tr) ->
      In (SessionsCreate params) tr ->
      stripe params = Rejected err ->
      r = Normal {| statusCode := 500;
                    body := VObj [("error", VStr (message err))] |} /\
      tr = [SessionsCreate params; ConsoleError err]) /\
  (forall (env : process_env) (req_body price quantity name : value)
          (product_name kind : string),
      destructure req_body = (price, quantity, name) ->
      positive_integer price ->
      ToString name = Normal product_name ->
      fst (serve (fun _ => Rejected (mkError kind "auth failed")) env req_body) =
        Normal {| statusCode := 500;
                  body := VObj [("error", VStr "auth failed")] |}).
Proof.
  split.
  - intros stripe env req_body r tr params err Hrun Hin Hrej.
    destruct (destructure req_body) as [[price quantity] name] eqn:Hbody.
    pose proof (serve_taken stripe env _ _ _ _ Hbody) as Hpath.
    rewrite Hrun in Hpath.
    inversion Hpath as [Hp | e Hp Hn | pn e Hp Hn Hs | pn s Hp Hn Hs]; subst.
    + destruct Hin.
    + destruct Hin as [Hin | []]. discriminate.
    + destruct Hin as [Hin | [Hin | []]]; [| discriminate].
      injection Hin as <-. rewrite Hs in Hrej. injection Hrej as <-.
      split; reflexivity.
    + destruct Hin as [Hin | []]. injection Hin as <-. congruence.
  - intros env req_body price quantity name product_name kind Hbody Hpos Hname.
    apply price_accepted_iff in Hpos.
    unfold serve.
    rewrite (run_provider_rejects _ env req_body _ _ _ Hbody [] product_name
               (mkError kind "auth failed") Hpos Hname eq_refl).
    reflexivity.
Qed.

(** What a request with an accepted price hands to the provider. *)
Lemma accepted_calls (stripe : Stripe) (env : process_env)
  (req_body price quantity name : value) :
  destructure req_body = (price, quantity, name) ->
  price_rejected price = false ->
  match ToString name with
  | Normal product_name =>
      calls (snd (serve stripe env req_body)) =
        [session_params (env_or (FRONTEND_URL env) "http://localhost:3000")
           price quantity product_name]
  | Throw _ => calls (snd (serve stripe env req_body)) = []
  end.
Proof.
  intros Hbody Hok.
  pose proof (serve_taken stripe env _ _ _ _ Hbody) as Hpath.
  inversion Hpath as [Hp | e Hp Hn | pn e Hp Hn Hs | pn s Hp Hn Hs];
    try congruence; rewrite Hn; reflexivity.
Qed.

(** C3: for a request whose price is a positive integer, any descriptor
    handed to the provider is the only one, and it has one line item, in
    euros, whose unit amount is the price, whose quantity is the quantity
    of the request and whose product name is [String(name)]; its mode is
    "payment" and its two redirect targets extend FRONTEND_URL, the success
    one with the {CHECKOUT_SESSION_ID} placeholder.  A descriptor is handed
    over whenever [String(name)] returns.  For
    {price: 2000, quantity: 2, name: "Widget"} the provider receives 2000,
    2 and "Widget", and the handler answers with the url of the session. *)
Theorem descriptor_of_a_valid_request :
  (forall (stripe : Stripe) (env : process_env)
          (req_body price quantity name : value)
          (r : completion response) (tr : list event),
      destructure req_body = (price, quantity, name) ->
      positive_integer price ->
      serve stripe env req_body = (r, tr) ->
      (forall params : value,
          In params (calls tr) ->
          calls tr = [params] /\
          exists (product_name base : string),
            ToString name = Normal product_name /\
            (forall s, FRONTEND_URL env = Some s -> s <> "" -> base = s) /\
            (FRONTEND_URL env = None \/ FRONTEND_URL env = Some "" ->
             base = "http://localhost:3000") /\
            describes params base price quantity product_name) /\
      (forall product_name : string,
          ToString name = Normal product_name ->
          exists params : value, calls tr = [params])) /\
  (forall (env : process_env) (base : string),
      FRONTEND_URL env = Some base -> base <> "" ->
      exists params : value,
        serve (fun _ => Resolved [("url", VStr "X")]) env
          (VObj [("price", num 2000); ("quantity", num 2);
                 ("name", VStr "Widget")]) =
          (Normal {| statusCode := 200; body := VObj [("url", VStr "X")] |},
           [SessionsCreate params]) /\
        describes params base (num 2000) (num 2) "Widget" /\
        denotes (num 2000) 2000 /\ denotes (num 2) 2).
Proof.
  split.
  - intros stripe env req_body price quantity name r tr Hbody Hpos Hrun.
    apply price_accepted_iff in Hpos.
    pose proof (accepted_calls stripe env _ _ _ _ Hbody Hpos) as Hcalls.
    rewrite Hrun in Hcalls. simpl in Hcalls.
    destruct (ToString name) as [pn | err].
    + split.
      * intros params Hin. rewrite Hcalls in Hin.
        destruct Hin as [<- | []]. split; [exact Hcalls |].
        exists pn, (env_or (FRONTEND_URL env) "http://localhost:3000").
        split; [reflexivity |]. split.
        -- intros s Hs Hne. rewrite Hs. now apply env_or_set.
        -- split; [intros [-> | ->]; reflexivity |].
           apply session_params_describes.
      * intros product_name _. eexists. exact Hcalls.
    + split.
      * intros params Hin. rewrite Hcalls in Hin. destruct Hin.
      * intros product_name H. discriminate.
  - intros env base Henv Hne. eexists. split; [| split; [| split]].
    + unfold serve, create_checkout_session, try_catch, bind, lift,
        sessions_create. simpl. reflexivity.
    + rewrite Henv, (env_or_set base _ Hne). apply session_params_describes.
    + eexists. split; [reflexivity | vm_compute; reflexivity].
    + eexists. split; [reflexivity | vm_compute; reflexivity].
Qed.

(** C4: an empty input gives the provider a descriptor with unit amount
    1500, quantity 1 and product name "Test Product"; so does a request
    without a body.  In any object, each of the three properties that is
    absent is replaced by its default. *)
Theorem defaults_of_an_empty_input (stripe : Stripe) (env : process_env) :
  destructure (VObj []) = (num 1500, num 1, VStr "Test Product") /\
  destructure VUndefined = (num 1500, num 1, VStr "Test Product") /\
  denotes (num 1500) 1500 /\ denotes (num 1) 1 /\
  (exists (params item : value),
      calls (snd (serve stripe env (VObj []))) = [params] /\
      calls (snd (serve stripe env VUndefined)) = [params] /\
      Get params "line_items" = VArr [item] /\
      path item ["price_data"; "unit_amount"] = num 1500 /\
      Get item "quantity" = num 1 /\
      path item ["price_data"; "product_data"; "name"] = VStr "Test Product") /\
  (forall props : list (string * value),
      (lookup "price" props = None ->
       fst (fst (destructure (VObj props))) = num 1500) /\
      (lookup "quantity" props = None ->
       snd (fst (destructure (VObj props))) = num 1) /\
      (lookup "name" props = None ->
       snd (destructure (VObj props)) = VStr "Test Product")).
Proof.
  split; [reflexivity |]. split; [reflexivity |].
  split; [eexists; split; [reflexivity | vm_compute; reflexivity] |].
  split; [eexists; split; [reflexivity | vm_compute; reflexivity] |].
  split.
  - assert (Hok : price_rejected (num 1500) = false) by reflexivity.
    pose proof (accepted_calls stripe env (VObj []) _ _ _ eq_refl Hok) as H1.
    pose proof (accepted_calls stripe env VUndefined _ _ _ eq_refl Hok) as H2.
    simpl in H1, H2.
    eexists. eexists. split; [exact H1 |]. split; [exact H2 |].
    repeat split; reflexivity.
  - intros props. unfold destructure, binding. simpl.
    repeat split; intros ->; reflexivity.
Qed.

(** C5: when the provider resolves with a session that has a [url], the
    handler answers 200 with exactly that url; a session whose url is
    "https://payments.example/session/abc" gives that url back. *)
Theorem provider_url_is_returned_unmodified :
  (forall (stripe : Stripe) (env : process_env) (req_body : value)
          (r : completion response) (tr : list event)
          (params : value) (session : list (string * value)) (url : value),
      serve stripe env req_body = (r, tr) ->
      In (SessionsCreate params) tr ->
      stripe params = Resolved session ->
      lookup "url" session = Some url ->
      r = Normal {| statusCode := 200; body := VObj [("url", url)] |}) /\
  (forall (env : process_env) (req_body price quantity name : value)
          (product_name : string),
      destructure req_body = (price, quantity, name) ->
      positive_integer price ->
      ToString name = Normal product_name ->
      fst (serve (fun _ => Resolved
                    [("url", VStr "https://payments.example/session/abc")])
             env req_body) =
        Normal {| statusCode := 200;
                  body := VObj [("url",
                                 VStr "https://payments.example/session/abc")] |}).
Proof.
  split.
  - intros stripe env req_body r tr params session url Hrun Hin Hres Hurl.
    destruct (destructure req_body) as [[price quantity] name] eqn:Hbody.
    pose proof (serve_taken stripe env _ _ _ _ Hbody) as Hpath.
    rewrite Hrun in Hpath.
    inversion Hpath as [Hp | e Hp Hn | pn e Hp Hn Hs | pn s Hp Hn Hs]; subst.
    + destruct Hin.
    + destruct Hin as [Hin | []]. discriminate.
    + destruct Hin as [Hin | [Hin | []]]; [| discriminate].
      injection Hin as <-. congruence.
    + destruct Hin as [Hin | []]. injection Hin as <-.
      rewrite Hs in Hres. injection Hres as <-.
      unfold success. simpl. now rewrite Hurl.
  - intros env req_body price quantity name product_name Hbody Hpos Hname.
    apply price_accepted_iff in Hpos. unfold serve.
    rewrite (run_provider_resolves _ env req_body _ _ _ Hbody [] product_name
               _ Hpos Hname eq_refl).
    reflexivity.
Qed.

Lemma destructure_price (v : value) (rest : list (string * value)) :
  v <> VUndefined ->
  fst (fst (destructure (VObj (("price", v) :: rest)))) = v.
Proof. intros Hv. destruct v; try reflexivity. congruence. Qed.

(** A request whose price is accepted is not answered 400. *)
Lemma accepted_not_400 (stripe : Stripe) (env : process_env)
  (req_body price quantity name : value) :
  destructure req_body = (price, quantity, name) ->
  price_rejected price = false ->
  exists (r : response) (tr : list event),
    serve stripe env req_body = (Normal r, tr) /\
    (statusCode r = 200 \/ statusCode r = 500).
Proof.
  intros Hbody Hok.
  destruct (serve_taken stripe env _ _ _ _ Hbody); try congruence;
    eexists; eexists; (split; [reflexivity | simpl; auto]).
Qed.

(** C6: the price 1 passes the check, and the prices 0 and -1 are both
    answered 400 with one and the same message, whatever else the request
    holds. *)
Theorem price_boundary (stripe : Stripe) (env : process_env)
  (rest : list (string * value)) :
  (denotes (num 1) 1 /\
   price_rejected (num 1) = false /\
   exists (r : response) (tr : list event),
     serve stripe env (VObj (("price", num 1) :: rest)) = (Normal r, tr) /\
     statusCode r <> 400) /\
  (denotes (num 0) 0 /\
   serve stripe env (VObj (("price", num 0) :: rest)) =
     (Normal {| statusCode := 400;
                body := VObj [("error",
                               VStr "price must be a positive integer (in cents)")] |},
      [])) /\
  (denotes (num (-1)) (-1) /\
   serve stripe env (VObj (("price", num (-1)) :: rest)) =
     (Normal {| statusCode := 400;
                body := VObj [("error",
                               VStr "price must be a positive integer (in cents)")] |},
      [])).
Proof.
  assert (Hden : forall z, In z [1; 0; -1] -> denotes (num z) z).
  { intros z Hz. simpl in Hz.
    destruct Hz as [<- | [<- | [<- | []]]];
      (eexists; split; [reflexivity | vm_compute; reflexivity]). }
  assert (Hd : forall z, In z [1; 0; -1] ->
             exists quantity name,
               destructure (VObj (("price", num z) :: rest)) =
                 (num z, quantity, name)).
  { intros z Hz.
    destruct (destructure (VObj (("price", num z) :: rest)))
      as [[p q] n] eqn:Hbody.
    exists q, n. f_equal. f_equal.
    change p with (fst (fst (p, q, n))). rewrite <- Hbody.
    apply destructure_price. simpl in Hz.
    destruct Hz as [<- | [<- | [<- | []]]]; discriminate. }
  split; [| split].
  - split; [apply Hden; simpl; auto |]. split; [reflexivity |].
    destruct (Hd 1) as (q & n & Hbody); [simpl; auto |].
    destruct (accepted_not_400 stripe env _ _ _ _ Hbody eq_refl)
      as (r & tr & Hrun & Hcode).
    exists r, tr. split; [exact Hrun | lia].
  - split; [apply Hden; simpl; auto |].
    destruct (Hd 0) as (q & n & Hbody); [simpl; auto |].
    unfold serve. now rewrite (run_rejected stripe env _ _ _ _ Hbody [] eq_refl).
  - split; [apply Hden; simpl; auto |].
    destruct (Hd (-1)) as (q & n & Hbody); [simpl; auto |].
    unfold serve. now rewrite (run_rejected stripe env _ _ _ _ Hbody [] eq_refl).
Qed.

(** C7, as the code has it: a quantity that is present is placed in the
    descriptor exactly as it was given, whatever its type or sign; the
    handler neither converts nor checks it. *)
Theorem quantity_is_forwarded_as_given
  (stripe : Stripe) (env : process_env) (props : list (string * value))
  (given price quantity name : value) :
  lookup "quantity" props = Some given ->
  given <> VUndefined ->
  destructure (VObj props) = (price, quantity, name) ->
  positive_integer price ->
  quantity = given /\
  (forall params : value,
      In params (calls (snd (serve stripe env (VObj props)))) ->
      exists item : value,
        Get params "line_items" = VArr [item] /\
        Get item "quantity" = given) /\
  (forall product_name : string,
      ToString name = Normal product_name ->
      exists params : value,
        calls (snd (serve stripe env (VObj props))) = [params]).
Proof.
  intros Hq Hgiven Hbody Hpos.
  assert (Hquantity : quantity = given).
  { unfold destructure, binding in Hbody. simpl in Hbody. rewrite Hq in Hbody.
    injection Hbody as _ <- _. destruct given; congruence. }
  subst quantity. split; [reflexivity |].
  apply price_accepted_iff in Hpos.
  pose proof (accepted_calls stripe env _ _ _ _ Hbody Hpos) as Hcalls.
  destruct (ToString name) as [pn | err]; rewrite Hcalls; split.
  - intros params [<- | []]. eexists. split; reflexivity.
  - intros product_name _. eexists. reflexivity.
  - intros params [].
  - intros product_name H. discriminate.
Qed.

(** C8: a request whose price is not a positive integer gets the same 400
    answer whatever the provider, the environment and the events that came
    before, and it adds nothing to them; handling the request twice in a
    row gives that answer twice. *)
Theorem validation_is_stateless
  (stripe1 stripe2 : Stripe) (env1 env2 : process_env)
  (tr1 tr2 : list event) (req_body price quantity name : value) :
  destructure req_body = (price, quantity, name) ->
  ~ positive_integer price ->
  let answer :=
    {| statusCode := 400;
       body := VObj [("error",
                      VStr "price must be a positive integer (in cents)")] |} in
  create_checkout_session stripe1 env1 req_body tr1 = (Normal answer, tr1) /\
  create_checkout_session stripe2 env2 req_body tr2 = (Normal answer, tr2) /\
  (r1 <- create_checkout_session stripe1 env1 req_body ;;
   r2 <- create_checkout_session stripe2 env2 req_body ;;
   ret (r1, r2)) tr1 = (Normal (answer, answer), tr1).
Proof.
  intros Hbody Hbad answer. apply not_positive_integer_iff in Hbad.
  pose proof (fun s e => run_rejected s e req_body _ _ _ Hbody) as Hrun.
  split; [now apply Hrun |]. split; [now apply Hrun |].
  unfold bind. rewrite (Hrun stripe1 env1 tr1 Hbad).
  rewrite (Hrun stripe2 env2 tr1 Hbad). reflexivity.
Qed.

(** C9: the answer is 400 exactly when the price is not a positive
    integer, whatever the name and the quantity are; when the price is
    accepted, the descriptor carries the quantity as given and
    [String(name)] as the product name. *)
Theorem only_the_price_check_answers_400
  (stripe : Stripe) (env : process_env) (req_body price quantity name : value)
  (r : response) (tr : list event) :
  destructure req_body = (price, quantity, name) ->
  serve stripe env req_body = (Normal r, tr) ->
  (statusCode r = 400 <-> ~ positive_integer price) /\
  (positive_integer price ->
   forall params : value,
     In params (calls tr) ->
     exists (item : value) (product_name : string),
       ToString name = Normal product_name /\
       Get params "line_items" = VArr [item] /\
       Get item "quantity" = quantity /\
       path item ["price_data"; "product_data"; "name"] = VStr product_name).
Proof.
  intros Hbody Hrun.
  pose proof (serve_taken stripe env _ _ _ _ Hbody) as Hpath.
  rewrite Hrun in Hpath. rewrite not_positive_integer_iff.
  rewrite <- price_accepted_iff.
  inversion Hpath as [Hp | e Hp Hn | pn e Hp Hn Hs | pn s Hp Hn Hs]; subst;
    rewrite Hp; simpl.
  - split; [split; reflexivity | discriminate].
  - split; [split; intros; [lia | discriminate] |]. intros _ params [].
  - split; [split; intros; [lia | discriminate] |].
    intros _ params [<- | []]. exists (VObj (("price_data", VObj 
      [("currency", VStr "eur"); ("product_data", VObj [("name", VStr pn)]);
       ("unit_amount", price)]) :: [("quantity", quantity)])), pn.
    repeat split; assumption || reflexivity.
  - split; [split; intros; [lia | discriminate] |].
    intros _ params [<- | []]. eexists. exists pn.
    repeat split; assumption || reflexivity.
Qed.

(** C10: an initialiser of the destructuring pattern is used only where the
    property reads [undefined]; a property that is [null] stays [null], and
    a request whose price is [null] is answered 400 without reaching the
    provider. *)
Theorem null_is_not_defaulted :
  (forall (b : value) (key : string) (dflt : value),
      (Get b key = VNull -> binding b key dflt = VNull) /\
      (binding b key dflt <> Get b key -> Get b key = VUndefined)) /\
  (forall (stripe : Stripe) (env : process_env) (props : list (string * value)),
      lookup "price" props = Some VNull ->
      fst (fst (destructure (VObj props))) = VNull /\
      fst (fst (destructure (VObj props))) <> num 1500 /\
      serve stripe env (VObj props) =
        (Normal {| statusCode := 400;
                   body := VObj [("error",
                                  VStr "price must be a positive integer (in cents)")] |},
         [])) /\
  (forall props : list (string * value),
      (lookup "quantity" props = Some VNull ->
       snd (fst (destructure (VObj props))) = VNull) /\
      (lookup "name" props = Some VNull ->
       snd (destructure (VObj props)) = VNull)).
Proof.
  split; [| split].
  - intros b key dflt. unfold binding. split.
    + intros ->. reflexivity.
    + destruct (Get b key); congruence.
  - intros stripe env props Hnull.
    assert (Hprice : fst (fst (destructure (VObj props))) = VNull).
    { unfold destructure, binding. simpl. now rewrite Hnull. }
    split; [exact Hprice |]. split; [rewrite Hprice; discriminate |].
    destruct (destructure (VObj props)) as [[p q] n] eqn:Hbody.
    simpl in Hprice. subst p. unfold serve.
    now rewrite (run_rejected stripe env _ _ _ _ Hbody [] eq_refl).
  - intros props. unfold destructure, binding. simpl.
    split; intros ->; reflexivity.
Qed.

End Claims.

(** ** Closed instances *)

(** C1 at {price: -1}. *)
Lemma invalid_price_answers_400_without_provider_witness :
  @destructure (VObj [("price", num (-1))]) =
    (num (-1), num 1, VStr "Test Product") /\
  is_negative (num (-1)) /\
  @serve mute_engine (resolving "X") example_env (VObj [("price", num (-1))]) =
    (Normal {| statusCode := 400;
               body := VObj [("error",
                              VStr "price must be a positive integer (in cents)")] |},
     []).
Proof.
  assert (Hneg : is_negative (num (-1))).
  { left. eexists. split; [reflexivity | vm_compute; reflexivity]. }
  split; [reflexivity |]. split; [exact Hneg |].
  apply (@invalid_price_answers_400_without_provider mute_engine
           (resolving "X") example_env (VObj [("price", num (-1))])
           (num (-1)) (num 1) (VStr "Test Product") eq_refl).
  right; right. exact Hneg.
Defined.

(** C2 with a provider that fails with "auth failed", on an empty input. *)
Lemma provider_error_answers_500_verbatim_witness :
  let params :=
    session_params "http://localhost:3000" (num 1500) (num 1) "Test Product" in
  let err := mkError "Error" "auth failed" in
  let run := @serve mute_engine (rejecting "auth failed") example_env (VObj []) in
  In (SessionsCreate params) (snd run) /\
  rejecting "auth failed" params = Rejected err /\
  fst run = Normal {| statusCode := 500;
                      body := VObj [("error", VStr "auth failed")] |} /\
  snd run = [SessionsCreate params; ConsoleError err].
Proof.
  intros params err run.
  split; [left; reflexivity |]. split; [reflexivity |].
  exact (proj1 (@provider_error_answers_500_verbatim mute_engine)
           (rejecting "auth failed") example_env (VObj []) (fst run) (snd run)
           params err eq_refl (or_introl eq_refl) eq_refl).
Defined.

(** C3 at {price: 2000, quantity: 2, name: "Widget"}. *)
Lemma descriptor_of_a_valid_request_witness :
  let req_body :=
    VObj [("price", num 2000); ("quantity", num 2); ("name", VStr "Widget")] in
  let run := @serve mute_engine (resolving "X") example_env req_body in
  @destructure req_body = (num 2000, num 2, VStr "Widget") /\
  positive_integer (num 2000) /\
  exists params : value, calls (snd run) = [params].
Proof.
  intros req_body run.
  assert (Hpos : positive_integer (num 2000)).
  { exists 2000. split; [lia |]. eexists.
    split; [reflexivity | vm_compute; reflexivity]. }
  split; [reflexivity |]. split; [exact Hpos |].
  exact (proj2 (proj1 (@descriptor_of_a_valid_request mute_engine)
                  (resolving "X") example_env req_body
                  (num 2000) (num 2) (VStr "Widget") (fst run) (snd run)
                  eq_refl Hpos eq_refl)
           "Widget" eq_refl).
Defined.

(** C4 at {price: 2000}, where quantity and name are absent. *)
Lemma defaults_of_an_empty_input_witness :
  let props := [("price", num 2000)] in
  lookup "quantity" props = None /\
  lookup "name" props = None /\
  @destructure (VObj props) = (num 2000, num 1, VStr "Test Product").
Proof.
  intros props. split; [reflexivity |]. split; [reflexivity |].
  destruct (@defaults_of_an_empty_input mute_engine (resolving "X") example_env)
    as (_ & _ & _ & _ & _ & Hdflt).
  destruct (Hdflt props) as (_ & Hq & Hn).
  specialize (Hq eq_refl). specialize (Hn eq_refl).
  destruct (destructure (VObj props)) as [[p q] n] eqn:Hbody.
  simpl in Hq, Hn. subst q n.
  f_equal. f_equal.
  change p with (fst (fst (p, num 1, VStr "Test Product"))).
  rewrite <- Hbody. reflexivity.
Defined.

(** C5 with a provider that resolves with
    {url: "https://payments.example/session/abc"}, on an empty input. *)
Lemma provider_url_is_returned_unmodified_witness :
  let params :=
    session_params "http://localhost:3000" (num 1500) (num 1) "Test Product" in
  let stripe := resolving "https://payments.example/session/abc" in
  let run := @serve mute_engine stripe example_env (VObj []) in
  In (SessionsCreate params) (snd run) /\
  (exists session : list (string * value),
      stripe params = Resolved session /\
      lookup "url" session =
        Some (VStr "https://payments.example/session/abc")) /\
  fst run =
    Normal {| statusCode := 200;
              body := VObj [("url",
                             VStr "https://payments.example/session/abc")] |}.
Proof.
  intros params stripe run.
  split; [left; reflexivity |].
  split; [eexists; split; reflexivity |].
  exact (proj1 (@provider_url_is_returned_unmodified mute_engine)
           stripe example_env (VObj []) (fst run) (snd run) params _
           (VStr "https://payments.example/session/abc")
           eq_refl (or_introl eq_refl) eq_refl eq_refl).
Defined.

(** C7, as claimed, fails at {price: 2000, quantity: 2.5}: the descriptor
    handed to the provider carries the quantity 2.5, which is no integer. *)
Lemma quantity_is_coerced_counterexample :
  let req_body :=
    VObj [("price", num 2000); ("quantity", VNum two_and_a_half)] in
  let run := @serve mute_engine (resolving "X") example_env req_body in
  Get req_body "quantity" = VNum two_and_a_half /\
  (exists q : Q, value_of (VNum two_and_a_half) = Some q /\ (q == 5 # 2)%Q) /\
  exists params item : value,
    calls (snd run) = [params] /\
    Get params "line_items" = VArr [item] /\
    Get item "quantity" = VNum two_and_a_half /\
    Number_isInteger (Get item "quantity") = false /\
    ~ is_integer (Get item "quantity").
Proof.
  intros req_body run.
  split; [reflexivity |]. split.
  - eexists. split; [reflexivity | vm_compute; reflexivity].
  - eexists. eexists. repeat split; try reflexivity.
    intros H. apply Number_isInteger_spec in H. discriminate.
Defined.

(** C7, as the code has it, at {price: 2000, quantity: "3"}. *)
Lemma quantity_is_forwarded_as_given_witness :
  let props := [("price", num 2000); ("quantity", VStr "3")] in
  let run := @serve mute_engine (resolving "X") example_env (VObj props) in
  lookup "quantity" props = Some (VStr "3") /\
  VStr "3" <> VUndefined /\
  @destructure (VObj props) = (num 2000, VStr "3", VStr "Test Product") /\
  positive_integer (num 2000) /\
  forall params : value,
    In params (calls (snd run)) ->
    exists item : value,
      Get params "line_items" = VArr [item] /\ Get item "quantity" = VStr "3".
Proof.
  intros props run.
  assert (Hpos : positive_integer (num 2000)).
  { exists 2000. split; [lia |]. eexists.
    split; [reflexivity | vm_compute; reflexivity]. }
  assert (Hstr : VStr "3" <> VUndefined) by discriminate.
  split; [reflexivity |]. split; [exact Hstr |].
  split; [reflexivity |]. split; [exact Hpos |].
  exact (proj1 (proj2 (@quantity_is_forwarded_as_given mute_engine
                         (resolving "X") example_env props (VStr "3")
                         (num 2000) (VStr "3") (VStr "Test Product")
                         eq_refl Hstr eq_refl Hpos))).
Defined.

(** C8 at {price: 0}, with two different providers and environments. *)
Lemma validation_is_stateless_witness :
  let req_body := VObj [("price", num 0)] in
  let earlier := [ConsoleError (mkError "Error" "auth failed")] in
  let answer :=
    {| statusCode := 400;
       body := VObj [("error",
                      VStr "price must be a positive integer (in cents)")] |} in
  @destructure req_body = (num 0, num 1, VStr "Test Product") /\
  ~ positive_integer (num 0) /\
  @create_checkout_session mute_engine (resolving "X") example_env req_body [] =
    (Normal answer, []) /\
  @create_checkout_session mute_engine (rejecting "auth failed")
    {| FRONTEND_URL := None |} req_body earlier = (Normal answer, earlier).
Proof.
  intros req_body earlier answer.
  assert (Hbad : ~ positive_integer (num 0)).
  { intros (z & Hz & q & Hq & Hqz). injection Hq as <-.
    apply (inject_Z_injective 0 z) in Hqz. lia. }
  split; [reflexivity |]. split; [exact Hbad |].
  destruct (@validation_is_stateless mute_engine (resolving "X")
              (rejecting "auth failed") example_env {| FRONTEND_URL := None |}
              [] earlier req_body (num 0) (num 1) (VStr "Test Product")
              eq_refl Hbad) as (H1 & H2 & _).
  split; [exact H1 | exact H2].
Defined.

(** C9 at {price: 2000, quantity: -5, name: ["a", null]}: not a 400. *)
Lemma only_the_price_check_answers_400_witness :
  let req_body :=
    VObj [("price", num 2000); ("quantity", num (-5));
          ("name", VArr [VStr "a"; VNull])] in
  let run := @serve mute_engine (resolving "X") example_env req_body in
  @destructure req_body = (num 2000, num (-5), VArr [VStr "a"; VNull]) /\
  run = (Normal {| statusCode := 200; body := VObj [("url", VStr "X")] |},
         snd run) /\
  (200 = 400 <-> ~ positive_integer (num 2000)).
Proof.
  intros req_body run.
  split; [reflexivity |]. split; [reflexivity |].
  exact (proj1 (@only_the_price_check_answers_400 mute_engine
                  (resolving "X") example_env req_body
                  (num 2000) (num (-5)) (VArr [VStr "a"; VNull])
                  {| statusCode := 200; body := VObj [("url", VStr "X")] |}
                  (snd run) eq_refl eq_refl)).
Defined.

(** C10 at {price: null}. *)
Lemma null_is_not_defaulted_witness :
  let props := [("price", VNull)] in
  lookup "price" props = Some VNull /\
  @serve mute_engine (resolving "X") example_env (VObj props) =
    (Normal {| statusCode := 400;
               body := VObj [("error",
                              VStr "price must be a positive integer (in cents)")] |},
     []).
Proof.
  intros props. split; [reflexivity |].
  exact (proj2 (proj2 (proj1 (proj2 (@null_is_not_defaulted mute_engine))
                         (resolving "X") example_env props eq_refl))).
Defined.

(** ** Further properties of the handler *)

Section Server.
Context {engine : Engine}.


(** X2: a request calls the provider at most once; a 400 leaves no event at
    all, a 200 means the provider was called and nothing was logged, and a
    500 is the only answer that comes with a [console.error], of exactly
    the message it carries. *)
Theorem events_of_a_request
  (stripe : Stripe) (env : process_env) (req_body : value)
  (r : response) (tr : list event) :
  serve stripe env req_body = (Normal r, tr) ->
  (List.length (calls tr) <= 1)%nat /\
  (statusCode r = 400 -> tr = []) /\
  (statusCode r = 200 -> exists params, tr = [SessionsCreate params]) /\
  (statusCode r = 500 ->
   exists err,
     body r = VObj [("error", VStr (message err))] /\
     (tr = [ConsoleError err] \/
      exists params, tr = [SessionsCreate params; ConsoleError err])) /\
  ((exists err, In (ConsoleError err) tr) -> statusCode r = 500).
Proof.
  intros Hrun.
  destruct (destructure req_body) as [[price quantity] name] eqn:Hbody.
  pose proof (serve_taken stripe env _ _ _ _ Hbody) as Hpath.
  rewrite Hrun in Hpath.
  inversion Hpath as [Hp | e Hp Hn | pn e Hp Hn Hs | pn s Hp Hn Hs]; subst;
    simpl.
  - split; [lia |]. split; [reflexivity |]. split; [discriminate |].
    split; [discriminate |]. intros [err []].
  - split; [lia |]. split; [discriminate |]. split; [discriminate |].
    split; [| reflexivity]. intros _. exists e. split; [reflexivity | now left].
  - split; [lia |]. split; [discriminate |]. split; [discriminate |].
    split; [| reflexivity]. intros _. exists e. split; [reflexivity |].
    right. eexists. reflexivity.
  - split; [lia |]. split; [discriminate |].
    split; [intros _; eexists; reflexivity |].
    split; [discriminate |]. intros [err [H | []]]. discriminate.
Qed.

(** X3: a body that is not an object (an array, a string, a Number, a
    boolean, [null], or none at all) is handled exactly like the empty
    object: all three defaults apply. *)
Theorem body_that_is_no_object
  (stripe : Stripe) (env : process_env) (req_body : value) (tr : list event) :
  (forall props, req_body <> VObj props) ->
  destructure req_body = (num 1500, num 1, VStr "Test Product") /\
  create_checkout_session stripe env req_body tr =
    create_checkout_session stripe env (VObj []) tr.
Proof.
  intros Hno.
  assert (Hd : destructure req_body = destructure (VObj [])).
  { unfold destructure, logical_or.
    destruct req_body as [| | b | x | s | l | o]; try reflexivity.
    - destruct (ToBoolean (VBool b)); reflexivity.
    - destruct (ToBoolean (VNum x)); reflexivity.
    - destruct (ToBoolean (VStr s)); reflexivity.
    - now destruct (Hno o). }
  split; [exact Hd |].
  unfold create_checkout_session. now rewrite Hd.
Qed.




End Server.

(** ** Properties of the checkout client *)

Section Client.
Context {engine : Engine} {browser : App.Browser}.

Ltac run_submit :=
  unfold App.submit, App.handleCheckout, App.try_catch_finally, App.and_then,
    App.fetch_json, App.settle, App.emit, App.GetV, App.assign_location,
    App.alert; simpl.

Ltac not_in_trace :=
  let H := fresh "H" in
  intros H; repeat (destruct H as [H | H]; try discriminate); now destruct H.

(** What a submission adds between the request and the reset of
    [loading]: a navigation, an alert, or a logged error followed by the
    alert "Request failed". *)
Lemma submission_cases (net : App.Network) (st : App.form)
  (tr : list App.ui_event) :
  exists shown : list App.ui_event,
    App.handleCheckout net st tr =
      (Normal tt,
       ((((tr ++ [App.PreventDefault]) ++ [App.SetLoading true]) ++
         [App.Fetch "http://localhost:4242/create-checkout-session"
            (App.payload_of st)]) ++ shown ++ [App.SetLoading false])%list) /\
    ((exists href, shown = [App.SetLocation href]) \/
     (exists text, shown = [App.Alert text]) \/
     (exists err, shown = [App.LogError err; App.Alert "Request failed"])).
Proof.
  assert (Hfail : forall (l : list App.ui_event) err,
             exists shown : list App.ui_event,
               (Normal tt,
                (((l ++ [App.LogError err]) ++ [App.Alert "Request failed"]) ++
                 [App.SetLoading false])%list) =
               (Normal tt, (l ++ shown ++ [App.SetLoading false])%list) /\
               ((exists href, shown = [App.SetLocation href]) \/
                (exists text, shown = [App.Alert text]) \/
                (exists e, shown = [App.LogError e; App.Alert "Request failed"]))).
  { intros l err. exists [App.LogError err; App.Alert "Request failed"].
    split; [now rewrite <- !app_assoc | right; right; now exists err]. }
  assert (Halert : forall (l : list App.ui_event) text,
             exists shown : list App.ui_event,
               (Normal tt,
                ((l ++ [App.Alert text]) ++ [App.SetLoading false])%list) =
               (Normal tt, (l ++ shown ++ [App.SetLoading false])%list) /\
               ((exists href, shown = [App.SetLocation href]) \/
                (exists t, shown = [App.Alert t]) \/
                (exists e, shown = [App.LogError e; App.Alert "Request failed"]))).
  { intros l text. exists [App.Alert text].
    split; [now rewrite <- !app_assoc | right; left; now exists text]. }
  run_submit.
  destruct (net (App.payload_of st)) as [err | err | data]; simpl;
    try apply Hfail.
  destruct data as [| | b | x | s | l | o]; simpl;
    try apply Hfail; try apply Halert.
  destruct (ToBoolean _).
  - destruct (ToString _) as [href | err]; simpl; [| apply Hfail].
    destruct (App.url_error href) as [err |]; simpl; [apply Hfail |].
    exists [App.SetLocation href].
    split; [now rewrite <- !app_assoc | left; now exists href].
  - destruct (ToString _) as [text | err]; simpl; [apply Halert | apply Hfail].
Qed.

(** X5: whatever the network answers and whatever came before, a
    submission ends normally; it first prevents the default action and
    sets [loading], sends one POST of the form to the endpoint, and its
    last event resets [loading]: the button is never left disabled. *)
Theorem submission_frame (net : App.Network) (st : App.form)
  (tr : list App.ui_event) :
  exists shown : list App.ui_event,
    App.handleCheckout net st tr =
      (Normal tt,
       (tr ++ [App.PreventDefault; App.SetLoading true;
               App.Fetch "http://localhost:4242/create-checkout-session"
                 (VObj [("price", VNum (App.Number (App.price st)));
                        ("quantity", VNum (App.Number (App.quantity st)));
                        ("name", VStr (App.name st))])]
           ++ shown ++ [App.SetLoading false])%list) /\
    (forall e, In e shown ->
       match e with
       | App.SetLocation _ | App.Alert _ | App.LogError _ => True
       | _ => False
       end) /\
    forall before : bool,
      App.loading_after (snd (App.handleCheckout net st tr)) before = false.
Proof.
  destruct (submission_cases net st tr) as (shown & Hrun & Hshown).
  exists shown. split; [| split].
  - rewrite Hrun. now rewrite <- !app_assoc.
  - intros e He.
    destruct Hshown as [[href ->] | [[text ->] | [err ->]]]; simpl in He;
      repeat (destruct He as [<- | He]; [exact I |]); destruct He.
  - intros before. rewrite Hrun. simpl. rewrite app_assoc.
    unfold App.loading_after. now rewrite fold_left_app.
Qed.

(** X6: every submission shows the user exactly one thing: it either
    starts one navigation or raises one alert, never both and never
    neither. *)
Theorem one_outcome_per_submission (net : App.Network) (st : App.form) :
  (exists href,
      App.outcomes (snd (App.submit net st)) = [App.SetLocation href]) \/
  (exists text, App.outcomes (snd (App.submit net st)) = [App.Alert text]).
Proof.
  unfold App.submit.
  destruct (submission_cases net st []) as (shown & -> & Hshown).
  destruct Hshown as [[href ->] | [[text ->] | [err ->]]];
    [left | right | right]; eexists; reflexivity.
Qed.

(** X7: a navigation starts exactly when the reply parses to a value whose
    [url] is truthy, prints, and is taken for a URL by the browser; it
    goes to that [url]. *)
Theorem navigation_needs_a_url (net : App.Network) (st : App.form)
  (href : string) :
  In (App.SetLocation href) (snd (App.submit net st)) <->
  exists data,
    net (App.payload_of st) = App.Json data /\
    ToBoolean (Get data "url") = true /\
    ToString (Get data "url") = Normal href /\
    App.url_error href = None.
Proof.
  run_submit.
  destruct (net (App.payload_of st)) as [err | err | data] eqn:Hnet; simpl.
  - split; [not_in_trace | intros (d & Hd & _); discriminate].
  - split; [not_in_trace | intros (d & Hd & _); discriminate].
  - destruct data as [| | b | x | s | l | o]; simpl;
      try (split; [not_in_trace | intros (d & [= <-] & Hd & _); discriminate]).
    destruct (ToBoolean _) eqn:Htruthy.
    + destruct (ToString _) as [h | err] eqn:Hprint; simpl.
      * destruct (App.url_error h) as [err |] eqn:Hparse; simpl.
        -- split; [not_in_trace |].
           intros (d & [= <-] & _ & Hd & Hu). simpl in Hd.
           rewrite Hprint in Hd. injection Hd as ->. congruence.
        -- split.
           ++ intros He. repeat (destruct He as [He | He]; try discriminate);
                [| destruct He].
              injection He as <-. exists (VObj o). simpl.
              rewrite Htruthy, Hprint. auto.
           ++ intros (d & [= <-] & _ & Hd & Hu). simpl in Hd.
              rewrite Hprint in Hd. injection Hd as <-. simpl. auto.
      * split; [not_in_trace |].
        intros (d & [= <-] & _ & Hd & _). simpl in Hd.
        rewrite Hprint in Hd. discriminate.
    + split; [| intros (d & [= <-] & Hd & _); simpl in Hd; congruence].
      destruct (ToString _) as [text | err]; simpl; not_in_trace.
Qed.


(** X9: a reply that parses to an object without a truthy [url] raises one
    alert: its [error] string when that is not empty, and "Unknown error"
    when it is empty or absent. *)
Theorem reply_without_url_is_alerted (net : App.Network) (st : App.form)
  (props : list (string * value)) :
  net (App.payload_of st) = App.Json (VObj props) ->
  ToBoolean (Get (VObj props) "url") = false ->
  (forall msg,
      Get (VObj props) "error" = VStr msg ->
      App.outcomes (snd (App.submit net st)) =
        [App.Alert (if String.eqb msg "" then "Unknown error" else msg)]) /\
  (Get (VObj props) "error" = VUndefined ->
   App.outcomes (snd (App.submit net st)) = [App.Alert "Unknown error"]).
Proof.
  intros Hnet Hurl.
  split; [intros msg Herror | intros Herror];
    run_submit; rewrite Hnet; simpl in Hurl, Herror |- *;
    rewrite Hurl, Herror; unfold logical_or; simpl; [| reflexivity].
  destruct (String.eqb msg ""); reflexivity.
Qed.

End Client.

(** ** Client and server together *)

Section EndToEnd.
Context {node : Engine} {engine : Engine} {browser : App.Browser}.

(** The price check gives the same verdict before and after transport. *)
Lemma transported_verdict (x : number) :
  price_rejected (JSON_roundtrip (VNum x)) = price_rejected (VNum x).
Proof. destruct x as [s | s | | s m e]; reflexivity. Qed.

Lemma accepted_price_is_transported (x : number) :
  price_rejected (VNum x) = false -> JSON_roundtrip (VNum x) = VNum x.
Proof. destruct x as [s | s | | s m e]; try discriminate; reflexivity. Qed.

(** What the handler destructures from the payload of a form. *)
Lemma destructure_payload (st : App.form) :
  destructure (JSON_roundtrip (App.payload_of st)) =
    (JSON_roundtrip (VNum (App.Number (App.price st))),
     JSON_roundtrip (VNum (App.Number (App.quantity st))),
     VStr (App.name st)).
Proof.
  unfold App.payload_of.
  destruct (App.Number (App.price st)), (App.Number (App.quantity st));
    reflexivity.
Qed.

Ltac run_submit :=
  unfold App.submit, App.handleCheckout, App.try_catch_finally, App.and_then,
    App.fetch_json, App.settle, App.emit, App.GetV, App.assign_location,
    App.alert, delivered, serve.

(** X10: when the Number made of the price field is not a positive
    integer and the request is delivered, the provider is not called and
    the user is shown the message of the price check, as it is. *)
Theorem rejected_price_reaches_the_user
  (stripe : Stripe) (env : process_env) (st : App.form) :
  ~ positive_integer (VNum (App.Number (App.price st))) ->
  App.submit (@delivered node stripe env) st =
    (Normal tt,
     [App.PreventDefault; App.SetLoading true;
      App.Fetch "http://localhost:4242/create-checkout-session"
        (App.payload_of st);
      App.Alert "price must be a positive integer (in cents)";
      App.SetLoading false]) /\
  snd (@serve node stripe env (JSON_roundtrip (App.payload_of st))) = [].
Proof.
  intros Hbad. apply not_positive_integer_iff in Hbad.
  rewrite <- transported_verdict in Hbad.
  pose proof (@run_rejected node stripe env _ _ _ _ (destructure_payload st) [] Hbad)
    as Hrun.
  split.
  - run_submit. rewrite Hrun. reflexivity.
  - unfold serve. now rewrite Hrun.
Qed.

(** X11: when the price is a positive integer, the request is delivered
    and the provider resolves with a session whose [url] is a non-empty
    string that the browser takes for a URL, the browser is sent to
    exactly that url and no alert is raised. *)
Theorem checkout_navigates_to_the_session
  (stripe : Stripe) (env : process_env) (st : App.form)
  (session : list (string * value)) (url : string) :
  positive_integer (VNum (App.Number (App.price st))) ->
  (forall params, stripe params = Resolved session) ->
  lookup "url" session = Some (VStr url) ->
  url <> "" ->
  App.url_error url = None ->
  App.submit (@delivered node stripe env) st =
    (Normal tt,
     [App.PreventDefault; App.SetLoading true;
      App.Fetch "http://localhost:4242/create-checkout-session"
        (App.payload_of st);
      App.SetLocation url;
      App.SetLoading false]).
Proof.
  intros Hpos Hstripe Hurl Hne Hparse. apply price_accepted_iff in Hpos.
  rewrite <- transported_verdict in Hpos.
  pose proof (@run_provider_resolves node stripe env _ _ _ _ (destructure_payload st)
                [] (App.name st) session Hpos eq_refl (Hstripe _)) as Hrun.
  run_submit. rewrite Hrun. simpl. rewrite Hurl. simpl.
  destruct (String.eqb_spec url ""); [contradiction |]. simpl.
  rewrite Hparse. reflexivity.
Qed.

(** X12: when the price is a positive integer, the request is delivered
    and the provider rejects it, the user is shown the message of the
    provider's error; when that message is empty, "Unknown error". *)
Theorem provider_failure_reaches_the_user
  (stripe : Stripe) (env : process_env) (st : App.form) (err : Error) :
  positive_integer (VNum (App.Number (App.price st))) ->
  (forall params, stripe params = Rejected err) ->
  App.submit (@delivered node stripe env) st =
    (Normal tt,
     [App.PreventDefault; App.SetLoading true;
      App.Fetch "http://localhost:4242/create-checkout-session"
        (App.payload_of st);
      App.Alert (if String.eqb (message err) ""
                 then "Unknown error" else message err);
      App.SetLoading false]).
Proof.
  intros Hpos Hstripe. apply price_accepted_iff in Hpos.
  rewrite <- transported_verdict in Hpos.
  pose proof (@run_provider_rejects node stripe env _ _ _ _ (destructure_payload st)
                [] (App.name st) err Hpos eq_refl (Hstripe _)) as Hrun.
  run_submit. rewrite Hrun. simpl.
  unfold logical_or. simpl. destruct (String.eqb (message err) ""); reflexivity.
Qed.

(** X13: when the provider resolves with a session whose [url] is missing,
    [null] or empty, the handler still answers 200, and the user is shown
    "Unknown error". *)
Theorem session_without_url_is_an_unknown_error
  (stripe : Stripe) (env : process_env) (st : App.form)
  (session : list (string * value)) :
  positive_integer (VNum (App.Number (App.price st))) ->
  (forall params, stripe params = Resolved session) ->
  ToBoolean (Get (VObj session) "url") = false ->
  (exists r tr,
      @serve node stripe env (JSON_roundtrip (App.payload_of st)) = (Normal r, tr) /\
      statusCode r = 200) /\
  App.submit (@delivered node stripe env) st =
    (Normal tt,
     [App.PreventDefault; App.SetLoading true;
      App.Fetch "http://localhost:4242/create-checkout-session"
        (App.payload_of st);
      App.Alert "Unknown error";
      App.SetLoading false]).
Proof.
  intros Hpos Hstripe Hurl. apply price_accepted_iff in Hpos.
  rewrite <- transported_verdict in Hpos.
  pose proof (@run_provider_resolves node stripe env _ _ _ _ (destructure_payload st)
                [] (App.name st) session Hpos eq_refl (Hstripe _)) as Hrun.
  split.
  - eexists. eexists. unfold serve. rewrite Hrun. split; reflexivity.
  - unfold App.submit, App.handleCheckout, App.try_catch_finally, App.and_then,
      App.fetch_json, App.settle, App.emit.
    unfold delivered, serve. rewrite Hrun.
    cbn [fst snd body success].
    set (url := Get (VObj session) "url") in *. clearbody url.
    destruct url as [| | b | x | s | l | o]; simpl in Hurl; try discriminate;
      try reflexivity.
    + destruct b; [discriminate | reflexivity].
    + destruct x; try discriminate; reflexivity.
    + destruct (String.eqb_spec s ""); [subst s; reflexivity | discriminate].
Qed.

(** X14: what the provider receives from a form whose price is a positive
    integer: the price as the very Number the client computed, the name as
    typed, and the quantity as the client's Number, except that NaN and
    the infinities arrive as [null] and -0 as 0. *)
Theorem form_reaches_the_provider
  (stripe : Stripe) (env : process_env) (st : App.form) :
  positive_integer (VNum (App.Number (App.price st))) ->
  exists params item : value,
    calls (snd (@serve node stripe env (JSON_roundtrip (App.payload_of st)))) =
      [params] /\
    Get params "line_items" = VArr [item] /\
    path item ["price_data"; "unit_amount"] =
      VNum (App.Number (App.price st)) /\
    path item ["price_data"; "product_data"; "name"] = VStr (App.name st) /\
    Get item "quantity" =
      match App.Number (App.quantity st) with
      | S754_nan | S754_infinity _ => VNull
      | S754_zero _ => VNum (S754_zero false)
      | S754_finite _ _ _ => VNum (App.Number (App.quantity st))
      end.
Proof.
  intros Hpos. apply price_accepted_iff in Hpos.
  pose proof (accepted_price_is_transported _ Hpos) as Hprice.
  rewrite <- transported_verdict in Hpos.
  pose proof (@accepted_calls node stripe env _ _ _ _ (destructure_payload st) Hpos)
    as Hcalls.
  change (@ToString node (VStr (App.name st))) with (Normal (App.name st)) in Hcalls.
  cbv beta iota in Hcalls. rewrite Hcalls, Hprice.
  eexists. eexists. split; [reflexivity |].
  repeat split; reflexivity.
Qed.

End EndToEnd.

(** ** Start-up *)


(** X16: the origin allowed by CORS at start-up is the origin the handler
    sends the customer back to: both redirect targets of every descriptor
    extend it. *)
Theorem cors_origin_is_the_redirect_origin {engine : Engine}
  (e : Startup.env) (origin : string)
  (stripe : Stripe) (req_body params : value) :
  In (Startup.UseCors origin) (Startup.main e) ->
  In params (calls (snd (serve stripe (Startup.routes e) req_body))) ->
  Get params "success_url" =
    VStr (origin ++ "/success?session_id={CHECKOUT_SESSION_ID}") /\
  Get params "cancel_url" = VStr (origin ++ "/cancelled").
Proof.
  intros Hcors Hin.
  assert (Horigin : origin =
            env_or (FRONTEND_URL (Startup.routes e)) "http://localhost:3000").
  { unfold Startup.main in Hcors.
    destruct (Startup.STRIPE_SECRET_KEY e) as [secret |];
      [destruct (String.eqb secret "") |]; simpl in Hcors;
      repeat (destruct Hcors as [Hcors | Hcors]; try discriminate);
      try now destruct Hcors.
    now injection Hcors as <-. }
  subst origin.
  destruct (destructure req_body) as [[price quantity] name] eqn:Hbody.
  pose proof (serve_taken stripe (Startup.routes e) _ _ _ _ Hbody) as Hpath.
  inversion Hpath as [Hp H0 | err Hp Hn H0 | pn err Hp Hn Hs H0 | pn s Hp Hn Hs H0];
    rewrite <- H0 in Hin; simpl in Hin; try now destruct Hin.
  - destruct Hin as [<- | []]. split; reflexivity.
  - destruct Hin as [<- | []]. split; reflexivity.
Qed.

(** ** Closed instances of the further properties *)

(** X2 on an empty input with a provider that resolves. *)
Lemma events_of_a_request_witness :
  let r := {| statusCode := 200; body := VObj [("url", VStr "X")] |} in
  let tr :=
    [SessionsCreate
       (session_params "http://localhost:3000" (num 1500) (num 1)
          "Test Product")] in
  @serve mute_engine (resolving "X") example_env (VObj []) = (Normal r, tr) /\
  (List.length (calls tr) <= 1)%nat /\
  (statusCode r = 200 -> exists params, tr = [SessionsCreate params]).
Proof.
  intros r tr. split; [reflexivity |].
  destruct (@events_of_a_request mute_engine (resolving "X") example_env
              (VObj []) r tr eq_refl) as (H1 & _ & H200 & _).
  split; [exact H1 | exact H200].
Defined.

(** X3 on the body [7]. *)
Lemma body_that_is_no_object_witness :
  (forall props, VArr [num 7] <> VObj props) /\
  destructure (VArr [num 7]) = (num 1500, num 1, VStr "Test Product").
Proof.
  assert (H : forall props, VArr [num 7] <> VObj props) by discriminate.
  split; [exact H |].
  exact (proj1 (@body_that_is_no_object mute_engine (resolving "X") example_env
                  (VArr [num 7]) [] H)).
Defined.


(** X7 with a reply {url: "https://checkout.stripe.com/c/pay/cs_test_1"}. *)
Lemma navigation_needs_a_url_witness :
  let href := "https://checkout.stripe.com/c/pay/cs_test_1" in
  let net : App.Network := fun _ => App.Json (VObj [("url", VStr href)]) in
  In (App.SetLocation href)
    (snd (@App.submit mute_engine App.sample_browser net App.initial)).
Proof.
  intros href net.
  apply (proj2 (@navigation_needs_a_url mute_engine App.sample_browser net
                  App.initial href)).
  exists (VObj [("url", VStr href)]). repeat split; reflexivity.
Defined.


(** X9 with a reply {error: "auth failed"}. *)
Lemma reply_without_url_is_alerted_witness :
  let props := [("error", VStr "auth failed")] in
  let net : App.Network := fun _ => App.Json (VObj props) in
  net (@App.payload_of App.sample_browser App.initial) = App.Json (VObj props) /\
  ToBoolean (Get (VObj props) "url") = false /\
  App.outcomes (snd (@App.submit mute_engine App.sample_browser net App.initial)) =
    [App.Alert "auth failed"].
Proof.
  intros props net. split; [reflexivity |]. split; [reflexivity |].
  exact (proj1 (@reply_without_url_is_alerted mute_engine App.sample_browser net
                  App.initial props eq_refl eq_refl)
           "auth failed" eq_refl).
Defined.

(** X10 with the price field at 0. *)
Lemma rejected_price_reaches_the_user_witness :
  let st :=
    {| App.loading := false;
       App.price := App.Untouched (number_of_Z 0);
       App.quantity := App.Untouched (number_of_Z 1);
       App.name := "Widget" |} in
  ~ positive_integer (VNum (@App.Number App.sample_browser (App.price st))) /\
  App.outcomes
    (snd (@App.submit mute_engine App.sample_browser
            (@delivered mute_engine (resolving "X") example_env) st)) =
    [App.Alert "price must be a positive integer (in cents)"].
Proof.
  intros st.
  assert (Hbad : ~ positive_integer
                     (VNum (@App.Number App.sample_browser (App.price st)))).
  { apply not_positive_integer_iff. reflexivity. }
  split; [exact Hbad |].
  rewrite (proj1 (@rejected_price_reaches_the_user mute_engine mute_engine
                    App.sample_browser (resolving "X") example_env st Hbad)).
  reflexivity.
Defined.

Lemma initial_price_is_accepted :
  positive_integer (VNum (@App.Number App.sample_browser (App.price App.initial))).
Proof. apply price_accepted_iff. reflexivity. Qed.

(** X11 with the untouched form and a provider that resolves. *)
Lemma checkout_navigates_to_the_session_witness :
  let url := "https://checkout.stripe.com/c/pay/cs_test_1" in
  positive_integer (VNum (@App.Number App.sample_browser (App.price App.initial))) /\
  lookup "url" [("id", VStr "cs_test_1"); ("url", VStr url)] = Some (VStr url) /\
  url <> "" /\
  App.outcomes
    (snd (@App.submit mute_engine App.sample_browser
            (@delivered mute_engine (resolving url) example_env) App.initial)) =
    [App.SetLocation url].
Proof.
  intros url.
  assert (Hne : url <> "") by discriminate.
  split; [exact initial_price_is_accepted |]. split; [reflexivity |].
  split; [exact Hne |].
  rewrite (@checkout_navigates_to_the_session mute_engine mute_engine
             App.sample_browser (resolving url) example_env App.initial
             [("id", VStr "cs_test_1"); ("url", VStr url)] url
             initial_price_is_accepted (fun _ => eq_refl) eq_refl Hne eq_refl).
  reflexivity.
Defined.

(** X12 with the untouched form and a provider that fails. *)
Lemma provider_failure_reaches_the_user_witness :
  positive_integer (VNum (@App.Number App.sample_browser (App.price App.initial))) /\
  App.outcomes
    (snd (@App.submit mute_engine App.sample_browser
            (@delivered mute_engine (rejecting "auth failed") example_env)
            App.initial)) =
    [App.Alert "auth failed"].
Proof.
  split; [exact initial_price_is_accepted |].
  rewrite (@provider_failure_reaches_the_user mute_engine mute_engine
             App.sample_browser (rejecting "auth failed") example_env
             App.initial (mkError "Error" "auth failed")
             initial_price_is_accepted (fun _ => eq_refl)).
  reflexivity.
Defined.

(** X13 with a session whose url is null. *)
Lemma session_without_url_is_an_unknown_error_witness :
  let session := [("id", VStr "cs_test_1"); ("url", VNull)] in
  let stripe : Stripe := fun _ => Resolved session in
  ToBoolean (Get (VObj session) "url") = false /\
  App.outcomes
    (snd (@App.submit mute_engine App.sample_browser
            (@delivered mute_engine stripe example_env) App.initial)) =
    [App.Alert "Unknown error"].
Proof.
  intros session stripe. split; [reflexivity |].
  rewrite (proj2 (@session_without_url_is_an_unknown_error mute_engine
                    mute_engine App.sample_browser stripe example_env
                    App.initial session initial_price_is_accepted
                    (fun _ => eq_refl) eq_refl)).
  reflexivity.
Defined.

(** X14 with the untouched form. *)
Lemma form_reaches_the_provider_witness :
  positive_integer (VNum (@App.Number App.sample_browser (App.price App.initial))) /\
  exists params : value,
    calls (snd (@serve mute_engine (resolving "X") example_env
                  (JSON_roundtrip
                     (@App.payload_of App.sample_browser App.initial)))) =
      [params].
Proof.
  split; [exact initial_price_is_accepted |].
  destruct (@form_reaches_the_provider mute_engine App.sample_browser
              (resolving "X") example_env App.initial
              initial_price_is_accepted) as (params & item & H & _).
  exists params. exact H.
Defined.


(** X16 with the environment of .env.example and an empty input. *)
Lemma cors_origin_is_the_redirect_origin_witness :
  let e :=
    {| Startup.STRIPE_SECRET_KEY := Some "sk_test_YOUR_SECRET_KEY";
       Startup.PORT := Some "4242";
       Startup.routes := example_env |} in
  let params :=
    session_params "http://localhost:3000" (num 1500) (num 1) "Test Product" in
  In (Startup.UseCors "http://localhost:3000") (Startup.main e) /\
  In params
    (calls (snd (@serve mute_engine (resolving "X") (Startup.routes e) (VObj [])))) /\
  Get params "success_url" =
    VStr "http://localhost:3000/success?session_id={CHECKOUT_SESSION_ID}" /\
  Get params "cancel_url" = VStr "http://localhost:3000/cancelled".
Proof.
  intros e params.
  assert (Hcors : In (Startup.UseCors "http://localhost:3000") (Startup.main e))
    by (simpl; auto).
  assert (Hin : In params
                  (calls (snd (@serve mute_engine (resolving "X")
                                 (Startup.routes e) (VObj [])))))
    by (left; reflexivity).
  split; [exact Hcors |]. split; [exact Hin |].
  exact (@cors_origin_is_the_redirect_origin mute_engine e
           "http://localhost:3000" (resolving "X") (VObj []) params Hcors Hin).
Defined.
